(** * XGBDistribution: a shallow embedding of [src/xgb_dist/model.py]

    The estimator of [model.py] is a thin orchestration layer between three
    collaborators: numpy (array construction), the boosting engine (xgboost)
    and the distribution registry of [xgb_dist.distributions].  Array
    operations are written out on lists, the estimator object is a record
    threaded through a state-and-exception monad, and the collaborators are
    interfaces (records of operations) over which every statement is
    universally quantified. *)

From Stdlib Require Import ZArith Lia Ascii String.
From stdpp Require Import base gmap strings list.

Set Default Proof Using "Type".

(** ** Python values, exceptions and results *)

(** The exceptions that appear in the source or in the specification. *)
Inductive exn : Type :=
| AttributeError
| IndexError
| TypeError
| ValueError
| UnknownDistributionError
| InvalidInputError
| NotFittedError
| EngineError (msg : string).

Inductive result (A : Type) : Type :=
| Ok (a : A)
| Raise (e : exn).
Arguments Ok {A} a.
Arguments Raise {A} e.

(** Floating point scalars are kept abstract: the source only ever builds
    the constants [0.0] and [1.0] and multiplies by [1.0]. *)
Class Float (T : Type) : Type := {
  fzero : T;
  fone : T;
  fmul : T → T → T;
  fis_zero : T → bool;
}.

(** The Python values that are stored in parameter dictionaries and that can
    be handed to the constructor. *)
Inductive pyval (T : Type) : Type :=
| VNone
| VBool (b : bool)
| VInt (z : Z)
| VFloat (x : T)
| VStr (s : string).
Arguments VNone {T}.
Arguments VBool {T} b.
Arguments VInt {T} z.
Arguments VFloat {T} x.
Arguments VStr {T} s.

(** Python truth value testing, as used by [distribution or "normal"]. *)
Definition truthy {T} `{Float T} (v : pyval T) : bool :=
  match v with
  | VNone => false
  | VBool b => b
  | VInt z => negb (z =? 0)%Z
  | VFloat x => negb (fis_zero x)
  | VStr EmptyString => false
  | VStr (String _ _) => true
  end.

(** [a or b] *)
Definition py_or {T} `{Float T} (a b : pyval T) : pyval T :=
  if truthy a then a else b.

(** ** The numpy operations used by [_get_base_margins] *)

Module np.
Section np.
Context {T : Type} `{Float T}.

(** A one-dimensional array, or a two-dimensional one with its rows and
    its number of columns (which numpy keeps also when there is no row). *)
Inductive ndarray : Type :=
| Arr1 (v : list T)
| Arr2 (ncols : nat) (rows : list (list T)).

(** [np.ones(shape=(n,))] *)
Definition ones (n : nat) : list T := replicate n fone.

(** [param * v] for a scalar [param]: broadcast multiplication. *)
Definition scale (param : T) (v : list T) : list T := fmul param <$> v.

(** [np.array(rows)] on a list of equally long one-dimensional arrays: the
    empty list gives the empty one-dimensional array. *)
Definition array (rows : list (list T)) : ndarray :=
  match rows with
  | [] => Arr1 []
  | r :: _ => Arr2 (length r) rows
  end.

(** Rows of the transposed matrix of a matrix with [c] columns. *)
Fixpoint transpose_rows (c : nat) (rows : list (list T)) : list (list T) :=
  match rows with
  | [] => replicate c []
  | r :: rs => zip_with cons r (transpose_rows c rs)
  end.

(** [a.transpose()]: the identity on one-dimensional arrays. *)
Definition transpose (a : ndarray) : ndarray :=
  match a with
  | Arr1 v => Arr1 v
  | Arr2 c rows => Arr2 (length rows) (transpose_rows c rows)
  end.

(** [a.flatten()]: row-major (C order). *)
Definition flatten (a : ndarray) : list T :=
  match a with
  | Arr1 v => v
  | Arr2 _ rows => concat rows
  end.

End np.
Arguments ndarray T : clear implicits.
End np.

(** ** Margin packing *)

Section packing.
Context {T : Type}.

(** [M] is a matrix of shape (n, K), given by its rows. *)
Definition has_shape (n K : nat) (M : list (list T)) : Prop :=
  length M = n ∧ Forall (λ r, length r = K) M.

(** Row-major flatten: sample-major, parameter-minor.  This is what
    [.flatten()] does in the source. *)
Definition pack (M : list (list T)) : list T := concat M.

Fixpoint chunks (fuel K : nat) (flat : list T) : list (list T) :=
  match fuel with
  | 0 => []
  | S fuel' =>
      match flat with
      | [] => []
      | _ :: _ => take K flat :: chunks fuel' K (drop K flat)
      end
  end.

(** Modelled from the spec: [unpack] is missing from [model.py], which
    hands the engine's prediction array to the distribution unchanged.
    Section 4.3 gives [unpack(flat sequence length n*K, K) -> matrix shape
    (n, K)]: the flat sequence is cut into consecutive rows of [K]
    entries.  With [K = 0] no row can be cut and the matrix without rows
    is returned. *)
Definition unpack (flat : list T) (K : nat) : list (list T) :=
  match K with
  | 0 => []
  | S _ => chunks (length flat) K flat
  end.
End packing.

(** ** The collaborators of the estimator *)

(** The opaque types of the boosting engine: feature matrices, data
    handles and trained ensembles. *)
Class EngineTypes : Type := {
  Features : Type;
  DMatrix : Type;
  Booster : Type;
}.

Section model.
Context {T : Type} `{Float T} `{EngineTypes}.

Abbreviation ndarray := (np.ndarray T).
Abbreviation dict := (gmap string (pyval T)).

(** The interface of a distribution of [xgb_dist.distributions], as
    [model.py] uses it: the attribute [params] and the four methods. *)
Record Distribution : Type := {
  dist_params : list string;
  dist_starting_params : list T → result (list T);
  dist_predict : ndarray → list (list T);
  dist_gradient_and_hessian : list T → ndarray → bool → ndarray * ndarray;
  dist_loss : list T → ndarray → string * T;
}.

(** The estimator object.  The three underscore attributes are absent
    until they are first assigned; [kwargs] and [objective] are what the
    constructor hands to [XGBModel.__init__]. *)
Record XGBDistribution : Type := {
  distribution : pyval T;
  natural_gradient : bool;
  objective : pyval T;
  kwargs : dict;
  _distribution : option Distribution;
  _starting_params : option (list T);
  _Booster : option Booster;
}.

Definition set__distribution (d : Distribution) (self : XGBDistribution) :=
  {| distribution := distribution self;
     natural_gradient := natural_gradient self;
     objective := objective self;
     kwargs := kwargs self;
     _distribution := Some d;
     _starting_params := _starting_params self;
     _Booster := _Booster self |}.

Definition set__starting_params (sp : list T) (self : XGBDistribution) :=
  {| distribution := distribution self;
     natural_gradient := natural_gradient self;
     objective := objective self;
     kwargs := kwargs self;
     _distribution := _distribution self;
     _starting_params := Some sp;
     _Booster := _Booster self |}.

Definition set__Booster (b : Booster) (self : XGBDistribution) :=
  {| distribution := distribution self;
     natural_gradient := natural_gradient self;
     objective := objective self;
     kwargs := kwargs self;
     _distribution := _distribution self;
     _starting_params := _starting_params self;
     _Booster := Some b |}.

Definition set_natural_gradient (b : bool) (self : XGBDistribution) :=
  {| distribution := distribution self;
     natural_gradient := b;
     objective := objective self;
     kwargs := kwargs self;
     _distribution := _distribution self;
     _starting_params := _starting_params self;
     _Booster := _Booster self |}.

(** The keyword arguments of the call of [_wrap_evaluation_matrices].
    [create_dmatrix] is the lambda that adds [nthread=self.n_jobs], kept
    as that value; [label_transform] is the identity lambda. *)
Record WrapCall : Type := {
  wc_missing : pyval T;
  wc_X : Features;
  wc_y : list T;
  wc_group : pyval T;
  wc_qid : pyval T;
  wc_sample_weight : pyval T;
  wc_base_margin : list T;
  wc_feature_weights : pyval T;
  wc_eval_set : option (list (Features * list T));
  wc_sample_weight_eval_set : pyval T;
  wc_base_margin_eval_set : option (list (list T));
  wc_eval_group : pyval T;
  wc_eval_qid : pyval T;
  wc_create_dmatrix_nthread : pyval T;
  wc_label_transform : list T → list T;
}.

(** The arguments of the call of [xgb.train]. *)
Record TrainCall : Type := {
  tc_params : dict;
  tc_dtrain : DMatrix;
  tc_num_boost_round : pyval T;
  tc_evals : list (DMatrix * string);
  tc_early_stopping_rounds : option nat;
  tc_obj : ndarray → DMatrix → result (list T * list T);
  tc_feval : ndarray → DMatrix → result (string * T);
  tc_verbose_eval : bool;
}.

(** The keyword arguments of the call of [XGBModel.predict]. *)
Record PredictCall : Type := {
  pc_X : Features;
  pc_output_margin : bool;
  pc_ntree_limit : option nat;
  pc_validate_features : bool;
  pc_base_margin : list T;
  pc_iteration_range : option (nat * nat);
}.

(** What [model.py] uses of xgboost: the inherited [XGBModel] part of the
    estimator and the module level entry points. *)
Class XGBoost : Type := {
  get_xgb_params : XGBDistribution → dict;
  get_num_boosting_rounds : XGBDistribution → pyval T;
  missing : XGBDistribution → pyval T;
  n_jobs : XGBDistribution → pyval T;
  shape0 : Features → nat;
  get_label : DMatrix → list T;
  _wrap_evaluation_matrices :
    WrapCall → result (DMatrix * list (DMatrix * string));
  xgb_train : TrainCall → result Booster;
  XGBModel_predict : XGBDistribution → PredictCall → result ndarray;
}.

(** What [model.py] uses of the registry of [xgb_dist.distributions]. *)
Class Registry : Type := {
  get_distribution : pyval T → result Distribution;
}.

Context `{XGBoost} `{Registry}.

(** *** The estimator monad: the object [self] is threaded, an exception
    ends the computation and keeps the assignments made before it. *)

Definition M (A : Type) : Type :=
  XGBDistribution → XGBDistribution * result A.

#[export] Instance M_ret : MRet M := λ A a self, (self, Ok a).

#[export] Instance M_bind : MBind M := λ A B f m self,
  match m self with
  | (self', Ok a) => f a self'
  | (self', Raise e) => (self', Raise e)
  end.

Definition raise {A} (e : exn) : M A := λ self, (self, Raise e).

(** The result of a call of a collaborator. *)
Definition call {A} (r : result A) : M A := λ self, (self, r).

Definition get_self : M XGBDistribution := λ self, (self, Ok self).

(** [self.attr = v] *)
Definition setattr (upd : XGBDistribution → XGBDistribution) : M unit :=
  λ self, (upd self, Ok tt).

(** [self.attr] for an attribute that may be absent. *)
Definition getattr {A} (attr : XGBDistribution → option A) : M A :=
  λ self, (self, match attr self with
                 | Some a => Ok a
                 | None => Raise AttributeError
                 end).

(** [hasattr(self, "attr")] *)
Definition hasattr {A} (attr : XGBDistribution → option A) : M bool :=
  λ self, (self, Ok (bool_decide (is_Some (attr self)))).

(** [seq[i]] *)
Definition getitem {A} (l : list A) (i : nat) : M A :=
  match l !! i with
  | Some a => mret a
  | None => raise IndexError
  end.

(** *** [XGBDistribution.__init__] *)

(** An omitted argument takes its default: [distribution=None],
    [natural_gradient=True].  The last line passes [objective=None] next to
    [**kwargs]: when the keyword arguments hold ["objective"] the call
    raises [TypeError] (two values for one keyword) and no estimator is
    constructed. *)
Definition __init__ (distribution_arg : option (pyval T))
    (natural_gradient_arg : option bool) (kwargs_arg : dict)
  : result XGBDistribution :=
  let name := py_or (default VNone distribution_arg) (VStr "normal") in
  let flag := default true natural_gradient_arg in
  match kwargs_arg !! "objective" with
  | Some _ => Raise TypeError
  | None =>
      Ok {| distribution := name;
            natural_gradient := flag;
            objective := VNone;
            kwargs := kwargs_arg;
            _distribution := None;
            _starting_params := None;
            _Booster := None |}
  end.

(** *** [XGBDistribution._get_base_margins] *)

Definition base_margins (starting_params : list T) (n_samples : nat)
  : list T :=
  np.flatten
    (np.transpose
       (np.array
          ((λ param, np.scale param (np.ones n_samples))
             <$> starting_params))).

Definition _get_base_margins (n_samples : nat) : M (list T) :=
  starting_params ← getattr _starting_params;
  mret (base_margins starting_params n_samples).

(** *** The callbacks.  Each closes over [self]; the engine does not
    assign to [self], so the closure is the function of the estimator as
    it is when the callback is made. *)

Definition _objective_func (self : XGBDistribution)
  : ndarray → DMatrix → result (list T * list T) :=
  λ params data,
    let y := get_label data in
    match _distribution self with
    | None => Raise AttributeError
    | Some d =>
        let '(grad, hess) :=
          dist_gradient_and_hessian d y params (natural_gradient self) in
        Ok (np.flatten grad, np.flatten hess)
    end.

Definition _evaluation_func (self : XGBDistribution)
  : ndarray → DMatrix → result (string * T) :=
  λ params data,
    let y := get_label data in
    match _distribution self with
    | None => Raise AttributeError
    | Some d => Ok (dist_loss d y params)
    end.


(** *** [XGBDistribution.fit] *)

(** Lines 25 to 60: everything up to the evaluated keyword arguments of the
    call of [_wrap_evaluation_matrices]. *)
Definition fit_wrap_args (X : Features) (y : list T)
    (eval_set : option (list (Features * list T)))
  : M (dict * WrapCall) :=
  self ← get_self;
  d ← call (get_distribution (distribution self));
  setattr (set__distribution d);;
  self ← get_self;
  let params := get_xgb_params self in
  let params := <["disable_default_eval_metric" := VBool true]> params in
  d ← getattr _distribution;
  let params :=
    <["num_class" := VInt (Z.of_nat (length (dist_params d)))]> params in
  let params := <["base_score" := VFloat fzero]> params in
  d ← getattr _distribution;
  starting_params ← call (dist_starting_params d y);
  setattr (set__starting_params starting_params);;
  base_margin ← _get_base_margins (length y);
  base_margin_eval_set ←
    match eval_set with
    | Some eval_set' =>
        margins ← mapM (λ evals : Features * list T,
                          _get_base_margins (length evals.2)) eval_set';
        mret (Some margins)
    | None => mret None
    end;
  self ← get_self;
  mret (params,
        {| wc_missing := missing self;
           wc_X := X;
           wc_y := y;
           wc_group := VNone;
           wc_qid := VNone;
           wc_sample_weight := VNone;
           wc_base_margin := base_margin;
           wc_feature_weights := VNone;
           wc_eval_set := eval_set;
           wc_sample_weight_eval_set := VNone;
           wc_base_margin_eval_set := base_margin_eval_set;
           wc_eval_group := VNone;
           wc_eval_qid := VNone;
           wc_create_dmatrix_nthread := n_jobs self;
           wc_label_transform := λ x, x |}).

(** Lines 44 to 71: the call of [_wrap_evaluation_matrices] and the
    evaluated arguments of the call of [xgb.train]. *)
Definition fit_train_args (X : Features) (y : list T)
    (eval_set : option (list (Features * list T)))
    (early_stopping_rounds : option nat) (verbose : bool)
  : M TrainCall :=
  '(params, wrap_args) ← fit_wrap_args X y eval_set;
  '(train_dmatrix, evals) ← call (_wrap_evaluation_matrices wrap_args);
  self ← get_self;
  mret {| tc_params := params;
          tc_dtrain := train_dmatrix;
          tc_num_boost_round := get_num_boosting_rounds self;
          tc_evals := evals;
          tc_early_stopping_rounds := early_stopping_rounds;
          tc_obj := _objective_func self;
          tc_feval := _evaluation_func self;
          tc_verbose_eval := verbose |}.

(** [fit(X, y, *, eval_set=None, early_stopping_rounds=None, verbose=True)];
    [return self] is the threaded object. *)
Definition fit (X : Features) (y : list T)
    (eval_set : option (list (Features * list T)))
    (early_stopping_rounds : option nat) (verbose : bool)
  : M unit :=
  train_args ← fit_train_args X y eval_set early_stopping_rounds verbose;
  booster ← call (xgb_train train_args);
  setattr (set__Booster booster).

(** *** [XGBDistribution.predict_dist] and [XGBDistribution.predict] *)

Definition predict_dist (X : Features) (ntree_limit : option nat)
    (validate_features : bool) (iteration_range : option (nat * nat))
  : M (list (list T)) :=
  has ← hasattr _distribution;
  (if negb has then
     self ← get_self;
     d ← call (get_distribution (distribution self));
     setattr (set__distribution d)
   else mret tt);;
  base_margin ← _get_base_margins (shape0 X);
  self ← get_self;
  params ← call (XGBModel_predict self
                   {| pc_X := X;
                      pc_output_margin := true;
                      pc_ntree_limit := ntree_limit;
                      pc_validate_features := validate_features;
                      pc_base_margin := base_margin;
                      pc_iteration_range := iteration_range |});
  d ← getattr _distribution;
  mret (dist_predict d params).

Definition predict (X : Features) (ntree_limit : option nat)
    (validate_features : bool) (iteration_range : option (nat * nat))
  : M (list T) :=
  all_params ← predict_dist X ntree_limit validate_features iteration_range;
  getitem all_params 0.

(** *** Fitted and unfitted estimators *)

(** No ensemble, Distribution or starting parameters are stored. *)
Definition unfitted (self : XGBDistribution) : Prop :=
  _Booster self = None ∧ _distribution self = None
  ∧ _starting_params self = None.

(** The triple (ensemble, distribution, starting parameters) is stored. *)
Definition fitted (self : XGBDistribution) : Prop :=
  is_Some (_Booster self) ∧ is_Some (_distribution self)
  ∧ is_Some (_starting_params self).

(** Two estimators that differ at most in the [natural_gradient] flag. *)
Definition same_up_to_natural_gradient (a b : XGBDistribution) : Prop :=
  distribution a = distribution b ∧ objective a = objective b
  ∧ kwargs a = kwargs b ∧ _distribution a = _distribution b
  ∧ _starting_params a = _starting_params b ∧ _Booster a = _Booster b.

(** What the constructor stored: the public parameters of the estimator. *)
Definition init_params (self : XGBDistribution)
  : pyval T * bool * pyval T * dict :=
  (distribution self, natural_gradient self, objective self, kwargs self).

End model.

(** ** Stand-ins for the collaborators

    Concrete collaborators on which the estimator can be run: scalars are
    the integer-valued floats (on which float multiplication is exact), the
    engine builds data handles and returns a record as its ensemble, and the
    registry holds one two-parameter distribution. *)

Module Double.

#[export] Instance Z_Float : Float Z :=
  {| fzero := 0%Z; fone := 1%Z; fmul := Z.mul; fis_zero := Z.eqb 0 |}.

Record dmatrix : Type := {
  dm_data : list (list Z);
  dm_label : list Z;
  dm_base_margin : list Z;
}.

Record booster : Type := {
  b_params : gmap string (pyval Z);
  b_num_boost_round : pyval Z;
}.

#[export] Instance types : EngineTypes :=
  {| Features := list (list Z); DMatrix := dmatrix; Booster := booster |}.

Definition lower_ascii (c : ascii) : ascii :=
  let n := nat_of_ascii c in
  if (65 <=? n) && (n <=? 90) then ascii_of_nat (n + 32) else c.

Fixpoint lower (s : string) : string :=
  match s with
  | EmptyString => EmptyString
  | String c s' => String (lower_ascii c) (lower s')
  end.

(** A distribution with the two parameters of the Normal family.  Modelled
    from the spec: [starting_params] fails with [InvalidInputError] on empty
    input and returns one scalar per parameter; [predict] returns one
    per-sample vector per parameter; [gradient_and_hessian] returns two
    matrices of the shape of the raw parameters.  The numbers themselves are
    placeholders (sum and count of the labels, residuals, unit curvature). *)
Definition normal : @Distribution Z :=
  {| dist_params := ["loc"; "scale"];
     dist_starting_params := λ y,
       match y with
       | [] => Raise InvalidInputError
       | _ :: _ => Ok [foldr Z.add 0%Z y; Z.of_nat (length y)]
       end;
     dist_predict := λ params,
       match params with
       | np.Arr1 v => [v]
       | np.Arr2 c rows => np.transpose_rows c rows
       end;
     dist_gradient_and_hessian := λ y params natural,
       match params with
       | np.Arr1 v => (np.Arr1 v, np.Arr1 ((λ _ : Z, 1%Z) <$> v))
       | np.Arr2 c rows =>
           (np.Arr2 c
              (zip_with (λ (yi : Z) (row : list Z),
                           (λ p : Z, if natural then (p - yi) * 2 else p - yi)%Z
                             <$> row) y rows),
            np.Arr2 c ((λ row : list Z, (λ _ : Z, 1%Z) <$> row) <$> rows))
       end;
     dist_loss := λ y params, ("NLL", foldr Z.add 0%Z y) |}.

(** Modelled from the spec: [get_distribution] is missing from the source;
    section 4.1 gives a case-insensitive lookup by name that fails with
    [UnknownDistributionError] if no variant is registered under the name. *)
#[export] Instance registry : @Registry Z :=
  {| get_distribution := λ name,
       match name with
       | VStr s => if decide (lower s = "normal") then Ok normal
                   else Raise UnknownDistributionError
       | _ => Raise UnknownDistributionError
       end |}.

(** An engine that checks its data and records what it is given.  As in
    xgboost, predicting without an ensemble raises [NotFittedError]. *)
#[export] Instance engine : @XGBoost Z types :=
  {| get_xgb_params := λ self, kwargs self;
     get_num_boosting_rounds := λ self,
       default (VInt 100) (kwargs self !! "n_estimators");
     missing := λ self, default VNone (kwargs self !! "missing");
     n_jobs := λ self, default VNone (kwargs self !! "n_jobs");
     shape0 := λ X : Features, length (X : list (list Z));
     get_label := dm_label;
     _wrap_evaluation_matrices := λ wc,
       if bool_decide (length (wc_X wc : list (list Z)) = length (wc_y wc))
       then
         Ok ({| dm_data := wc_X wc;
                dm_label := wc_label_transform wc (wc_y wc);
                dm_base_margin := wc_base_margin wc |},
             zip_with
               (λ (e : list (list Z) * list Z) bm,
                  ({| dm_data := e.1; dm_label := e.2;
                      dm_base_margin := bm |}, "validation"))
               (default [] (wc_eval_set wc))
               (default [] (wc_base_margin_eval_set wc)))
       else Raise (EngineError "data and label sizes differ");
     xgb_train := λ tc,
       match tc_early_stopping_rounds tc, tc_evals tc with
       | Some _, [] =>
           Raise (EngineError "early stopping needs an evaluation set")
       | _, _ =>
           Ok {| b_params := tc_params tc;
                 b_num_boost_round := tc_num_boost_round tc |}
       end;
     XGBModel_predict := λ self pc,
       match _Booster self with
       | None => Raise NotFittedError
       | Some b =>
           match b_params b !! "num_class" with
           | Some (VInt k) =>
               Ok (np.Arr2 (Z.to_nat k)
                     (unpack (pc_base_margin pc) (Z.to_nat k)))
           | _ => Raise (EngineError "no num_class")
           end
       end |}.

(** The estimator that [XGBDistribution()] constructs, some features and
    labels, the estimator after a successful [fit], and a data handle with
    a raw prediction matrix for the callbacks. *)
Definition est0 : @XGBDistribution Z types :=
  {| distribution := VStr "normal";
     natural_gradient := true;
     objective := VNone;
     kwargs := ∅;
     _distribution := None;
     _starting_params := None;
     _Booster := None |}.
Definition X2 : list (list Z) := [[1; 0]; [0; 1]]%Z.
Definition y2 : list Z := [3; 5]%Z.
Definition eval2 : list (list (list Z) * list Z) :=
  [(X2, y2); ([[1; 1]], [4])]%Z.
Definition est_fit : @XGBDistribution Z types :=
  (fit X2 y2 None None true est0).1.
Definition data2 : dmatrix :=
  {| dm_data := X2; dm_label := y2; dm_base_margin := [8; 2; 8; 2]%Z |}.
Definition raw2 : np.ndarray Z := np.Arr2 2 [[8; 2]; [8; 2]]%Z.

(** The estimator that [XGBDistribution(base_score=5.0, max_depth=3)]
    constructs, one hyperparameter colliding with a key that [fit]
    assigns, and a fitted estimator that has lost its [_distribution]
    attribute. *)
Definition kwargs_kw : gmap string (pyval Z) :=
  <["base_score" := VFloat 5%Z]> (<["max_depth" := VInt 3]> ∅).
Definition est_kw : @XGBDistribution Z types :=
  {| distribution := VStr "normal";
     natural_gradient := true;
     objective := VNone;
     kwargs := kwargs_kw;
     _distribution := None;
     _starting_params := None;
     _Booster := None |}.
Definition est_no_dist : @XGBDistribution Z types :=
  {| distribution := distribution est_fit;
     natural_gradient := natural_gradient est_fit;
     objective := objective est_fit;
     kwargs := kwargs est_fit;
     _distribution := None;
     _starting_params := _starting_params est_fit;
     _Booster := _Booster est_fit |}.

End Double.

(** * Properties *)

(** ** Flattening and transposition *)

Section array_facts.
Context {T : Type}.
Implicit Types (M : list (list T)) (r : list T).

Lemma has_shape_cons n K r M :
  has_shape (S n) K (r :: M) ↔ length r = K ∧ has_shape n K M.
Proof.
  unfold has_shape. rewrite Forall_cons. simpl. split.
  - intros [Hn [Hr HM]]. repeat split; auto with lia.
  - intros [Hr [Hn HM]]. repeat split; auto with lia.
Qed.

Lemma has_shape_replicate n r : has_shape n (length r) (replicate n r).
Proof.
  split; [apply length_replicate|].
  apply Forall_forall. intros x Hx. by apply elem_of_replicate in Hx as [-> _].
Qed.

Lemma pack_length n K M : has_shape n K M → length (pack M) = n * K.
Proof.
  revert n. induction M as [|r M IH]; intros n.
  - intros [<- _]. reflexivity.
  - destruct n as [|n]; [intros [Hn _]; discriminate Hn|].
    intros [Hr HM]%has_shape_cons. unfold pack in *. simpl.
    rewrite length_app, (IH n HM), Hr. lia.
Qed.

(** Entry [k] of row [i] sits at position [i * K + k] of the flat vector. *)
Lemma pack_lookup n K M i k :
  has_shape n K M → k < K →
  pack M !! (i * K + k) = M !! i ≫= (λ r, r !! k).
Proof.
  revert n i. induction M as [|r M IH]; intros n i HM Hk.
  - reflexivity.
  - destruct n as [|n]; [destruct HM as [Hn _]; discriminate Hn|].
    apply has_shape_cons in HM as [Hr HM]. unfold pack in *. simpl concat.
    destruct i as [|i]; simpl.
    + apply lookup_app_l. lia.
    + rewrite lookup_app_r by lia.
      replace (K + i * K + k - length r) with (i * K + k) by lia.
      by apply (IH n).
Qed.

Lemma chunks_pack fuel K M :
  0 < K → Forall (λ r, length r = K) M → length M ≤ fuel →
  chunks fuel K (pack M) = M.
Proof.
  intros HK. revert fuel. induction M as [|r M IH]; intros fuel HM Hfuel.
  - by destruct fuel.
  - apply Forall_cons in HM as [Hr HM].
    destruct fuel as [|fuel]; [simpl in Hfuel; lia|].
    unfold pack in *. simpl concat. simpl chunks.
    destruct r as [|x r]; [simpl in Hr; lia|].
    change ((x :: r) ++ concat M) with ((x :: r) ++ concat M).
    simpl app. rewrite <- Hr.
    change (x :: r ++ concat M) with ((x :: r) ++ concat M).
    rewrite take_app_length, drop_app_length, Hr.
    f_equal. apply IH; [done|]. simpl in Hfuel. lia.
Qed.

(** The other direction: cutting a flat vector into rows of [K > 0] entries
    and packing the rows gives the vector back. *)
Lemma pack_chunks fuel K (flat : list T) :
  0 < K → length flat ≤ fuel → pack (chunks fuel K flat) = flat.
Proof.
  intros HK. revert flat.
  induction fuel as [|fuel IH]; intros flat Hfuel.
  - destruct flat; [done|simpl in Hfuel; lia].
  - destruct flat as [|x flat]; [done|].
    cbn [chunks]. unfold pack in *. cbn [concat].
    rewrite IH, take_drop; [done|].
    rewrite length_drop. simpl in *. lia.
Qed.

Lemma pack_unpack K (flat : list T) : 0 < K → pack (unpack flat K) = flat.
Proof.
  intros HK. unfold unpack. destruct K as [|K]; [lia|].
  by apply pack_chunks; [lia|].
Qed.

(** No function of the flat vector and [K] alone can invert [pack] on the
    matrices without columns: they all pack to the empty vector. *)
Lemma pack_not_injective_without_columns (u : list T → nat → list (list T)) :
  ¬ (∀ n M, has_shape n 0 M → u (pack M) 0 = M).
Proof.
  intros Hu.
  assert (H1 : has_shape 1 0 ([[]] : list (list T))) by (split; [done|by repeat constructor]).
  assert (H0 : has_shape 0 0 ([] : list (list T))) by (split; [done|constructor]).
  pose proof (Hu _ _ H1) as E1. pose proof (Hu _ _ H0) as E0.
  unfold pack in *. simpl in *. congruence.
Qed.
End array_facts.

Section numpy_facts.
Context {T : Type} `{Float T}.

(** Transposing [K] constant rows of length [n] gives [n] copies of the
    row of the constants. *)
Lemma transpose_rows_constant (f : T → T) (n : nat) (s : list T) :
  np.transpose_rows n ((λ p, replicate n (f p)) <$> s)
  = replicate n (f <$> s).
Proof.
  induction s as [|p s IH]; [done|].
  rewrite !fmap_cons. simpl np.transpose_rows.
  by rewrite IH, zip_with_replicate.
Qed.

(** In general, entry [(j, i)] of the transposed matrix is entry [(i, j)]. *)
Lemma transpose_rows_length c (rows : list (list T)) :
  Forall (λ r, length r = c) rows → length (np.transpose_rows c rows) = c.
Proof.
  induction 1 as [|r rows Hr _ IH]; simpl.
  - apply length_replicate.
  - rewrite length_zip_with, IH, Hr. lia.
Qed.

Lemma transpose_rows_lookup c (rows : list (list T)) i j :
  Forall (λ r, length r = c) rows → j < c →
  np.transpose_rows c rows !! j ≫= (λ col, col !! i)
  = rows !! i ≫= (λ r, r !! j).
Proof.
  intros Hrows Hj. revert i.
  induction Hrows as [|r rows Hr Hrows IH]; intros i; simpl.
  - rewrite lookup_replicate_2 by done. simpl. by rewrite !lookup_nil.
  - rewrite lookup_zip_with.
    destruct (lookup_lt_is_Some_2 r j) as [x Hx]; [lia|].
    destruct (lookup_lt_is_Some_2 (np.transpose_rows c rows) j) as [col Hcol];
      [rewrite transpose_rows_length by done; lia|].
    rewrite Hx, Hcol. simpl.
    destruct i as [|i]; simpl; [by rewrite Hx|].
    rewrite <- IH, Hcol. done.
Qed.

Lemma base_margins_unfold (s : list T) (n : nat) :
  base_margins s n = pack (replicate n ((λ p, fmul p fone) <$> s)).
Proof.
  unfold base_margins, np.scale, np.ones.
  assert (E : (λ param : T, fmul param <$> replicate n fone) <$> s
              = (λ p, replicate n (fmul p fone)) <$> s).
  { apply list_fmap_ext. intros. apply fmap_replicate. }
  rewrite E. clear E.
  destruct s as [|p s].
  - unfold pack. simpl. induction n as [|n IH]; simpl; [done|]. by rewrite <- IH.
  - set (rows := (λ p, replicate n (fmul p fone)) <$> (p :: s)).
    assert (E : np.array rows = np.Arr2 n rows).
    { subst rows. rewrite fmap_cons. simpl. by rewrite length_replicate. }
    rewrite E. unfold np.transpose, np.flatten. subst rows.
    by rewrite (transpose_rows_constant (λ p, fmul p fone)).
Qed.
End numpy_facts.

(** ** The estimator *)

Ltac unfold_M :=
  unfold mbind, M_bind, mret, M_ret, call, get_self, setattr, getattr,
    hasattr, raise, getitem in *.

Section estimator_facts.
Context {T : Type} `{Float T} `{EngineTypes}.
Context {engine : @XGBoost T _} {registry : @Registry T}.
Implicit Types (self : @XGBDistribution T _) (X : Features) (y : list T)
  (eval_set : option (list (Features * list T))).

Lemma get_base_margins_stored self sp n :
  _starting_params self = Some sp →
  _get_base_margins n self = (self, Ok (base_margins sp n)).
Proof. intros Hsp. unfold _get_base_margins. unfold_M. by rewrite Hsp. Qed.

Lemma get_base_margins_absent self n :
  _starting_params self = None →
  _get_base_margins n self = (self, Raise AttributeError).
Proof. intros Hsp. unfold _get_base_margins. unfold_M. by rewrite Hsp. Qed.

Lemma mapM_get_base_margins (es : list (Features * list T)) self sp :
  _starting_params self = Some sp →
  mapM (λ evals : Features * list T, _get_base_margins (length evals.2))
    es self
  = (self, Ok ((λ evals : Features * list T,
                  base_margins sp (length evals.2)) <$> es)).
Proof.
  intros Hsp. induction es as [|e es IH]; [done|].
  set (f := λ evals : Features * list T, _get_base_margins (length evals.2))
    in *.
  change (mapM f (e :: es) self)
    with ((f e ≫= λ m, mapM f es ≫= λ k, mret (m :: k)) self).
  unfold mbind at 1. unfold M_bind.
  unfold f at 1. rewrite (get_base_margins_stored _ sp) by done.
  unfold mbind at 1. unfold M_bind.
  match goal with
  | |- (let (_, _) := ?m in _) = _ =>
      replace m with (self, Ok ((λ evals : Features * list T,
                                   base_margins sp (length evals.2)) <$> es))
        by (symmetry; exact IH)
  end.
  done.
Qed.

Lemma base_margins_length sp n :
  length (base_margins sp n) = n * length sp.
Proof.
  rewrite base_margins_unfold.
  rewrite (pack_length n (length sp)); [done|].
  pose proof (has_shape_replicate n ((λ p, fmul p fone) <$> sp)) as Hs.
  by rewrite length_fmap in Hs.
Qed.

(** The first stage of [fit], case by case. *)
Lemma fit_wrap_args_raise_lookup self X y eval_set e :
  get_distribution (distribution self) = Raise e →
  fit_wrap_args X y eval_set self = (self, Raise e).
Proof. intros Hd. unfold fit_wrap_args. unfold_M. by rewrite Hd. Qed.

Lemma fit_wrap_args_raise_starting self X y eval_set d e :
  get_distribution (distribution self) = Ok d →
  dist_starting_params d y = Raise e →
  fit_wrap_args X y eval_set self = (set__distribution d self, Raise e).
Proof.
  intros Hd Hsp. unfold fit_wrap_args. unfold_M. rewrite Hd. simpl.
  by rewrite Hsp.
Qed.

Lemma fit_wrap_args_ok self X y eval_set d sp :
  get_distribution (distribution self) = Ok d →
  dist_starting_params d y = Ok sp →
  ∃ params wc,
    fit_wrap_args X y eval_set self
    = (set__starting_params sp (set__distribution d self), Ok (params, wc))
    ∧ params
      = <["base_score" := VFloat fzero]>
          (<["num_class" := VInt (Z.of_nat (length (dist_params d)))]>
             (<["disable_default_eval_metric" := VBool true]>
                (get_xgb_params (set__distribution d self))))
    ∧ wc_base_margin wc = base_margins sp (length y)
    ∧ wc_eval_set wc = eval_set
    ∧ wc_base_margin_eval_set wc
      = match eval_set with
        | Some es => Some ((λ evals : Features * list T,
                              base_margins sp (length evals.2)) <$> es)
        | None => None
        end.
Proof.
  intros Hd Hsp. unfold fit_wrap_args.
  unfold mbind at 1 2 3 4 5 6 7 8. unfold M_bind, call, get_self, setattr, getattr.
  rewrite Hd. simpl. rewrite Hsp.
  unfold mbind at 1. unfold M_bind.
  rewrite (get_base_margins_stored _ sp) by done.
  unfold mbind at 1. unfold M_bind.
  destruct eval_set as [es|].
  - unfold mbind at 1. unfold M_bind.
    rewrite (mapM_get_base_margins es _ sp) by done.
    unfold_M. simpl. eauto 10.
  - unfold_M. simpl. eauto 10.
Qed.
End estimator_facts.

(** ** The claims *)

Section claims.
Context {T : Type} `{Float T} `{EngineTypes}.
Context {engine : @XGBoost T _} {registry : @Registry T}.
Implicit Types (self : @XGBDistribution T _) (X : Features) (y : list T)
  (eval_set : option (list (Features * list T))).

(** C1, as amended: on an estimator on which [fit] has not been called,
    [predict_dist] and [predict] return no prediction but raise: the error
    of the distribution lookup when the name does not resolve, and otherwise
    [AttributeError] for the missing [_starting_params]; the only
    attribute the call may leave behind is the resolved distribution. *)
Theorem predict_unfitted_raises self X ntree_limit validate_features
    iteration_range :
  unfitted self →
  match get_distribution (distribution self) with
  | Ok d =>
      predict_dist X ntree_limit validate_features iteration_range self
      = (set__distribution d self, Raise AttributeError)
      ∧ predict X ntree_limit validate_features iteration_range self
        = (set__distribution d self, Raise AttributeError)
  | Raise e =>
      predict_dist X ntree_limit validate_features iteration_range self
      = (self, Raise e)
      ∧ predict X ntree_limit validate_features iteration_range self
        = (self, Raise e)
  end.
Proof.
  intros (_ & Hd & Hsp).
  unfold predict, predict_dist, _get_base_margins. unfold_M.
  rewrite Hd. simpl.
  destruct (get_distribution (distribution self)) as [d|e]; simpl;
    rewrite ?Hsp; done.
Qed.

(** C2, as amended: [fit] either completes and stores the consistent triple
    (ensemble, distribution, starting parameters), or raises and stores no
    ensemble.  A failed [fit] is not undone: only a failing distribution
    lookup leaves the estimator as it was; when [starting_params] raises,
    the resolved distribution is stored; when the engine raises, the
    distribution and the starting parameters are stored. *)
Theorem fit_outcome self X y eval_set early_stopping_rounds verbose :
  match fit X y eval_set early_stopping_rounds verbose self with
  | (self', Ok _) =>
      ∃ d sp tc b,
        get_distribution (distribution self) = Ok d
        ∧ dist_starting_params d y = Ok sp
        ∧ xgb_train tc = Ok b
        ∧ self' = set__Booster b
                    (set__starting_params sp (set__distribution d self))
  | (self', Raise e) =>
      _Booster self' = _Booster self
      ∧ ((get_distribution (distribution self) = Raise e ∧ self' = self)
         ∨ (∃ d, get_distribution (distribution self) = Ok d
                 ∧ dist_starting_params d y = Raise e
                 ∧ self' = set__distribution d self)
         ∨ (∃ d sp, get_distribution (distribution self) = Ok d
                    ∧ dist_starting_params d y = Ok sp
                    ∧ self' = set__starting_params sp
                                (set__distribution d self)
                    ∧ ((∃ wc, _wrap_evaluation_matrices wc = Raise e)
                       ∨ (∃ tc, xgb_train tc = Raise e))))
  end.
Proof.
  unfold fit, fit_train_args.
  unfold mbind at 1 2 3. unfold M_bind.
  destruct (get_distribution (distribution self)) as [d|e] eqn:Hd.
  2:{ rewrite (fit_wrap_args_raise_lookup _ _ _ _ e Hd). auto. }
  destruct (dist_starting_params d y) as [sp|e] eqn:Hsp.
  2:{ rewrite (fit_wrap_args_raise_starting _ _ _ _ d e Hd Hsp).
      split; [done|]. right; left. eauto. }
  destruct (fit_wrap_args_ok self X y eval_set d sp Hd Hsp)
    as (params & wc & -> & _).
  unfold mbind at 1 2. unfold M_bind, call.
  destruct (_wrap_evaluation_matrices wc) as [[dtrain evals]|e] eqn:Hwrap.
  2:{ split; [done|]. right; right. exists d, sp. eauto 10. }
  unfold_M.
  match goal with
  | |- context [xgb_train ?tc] => destruct (xgb_train tc) as [b|e] eqn:Htrain
  end.
  - eauto 10.
  - split; [done|]. right; right. exists d, sp. eauto 10.
Qed.

(** C3: [predict] returns exactly the first element of the sequence that
    [predict_dist] returns on the same input and options (and leaves the
    estimator in the same state); an error of [predict_dist] is passed on,
    and an empty sequence has no first element. *)
Theorem predict_is_first_of_predict_dist self X ntree_limit
    validate_features iteration_range :
  match predict_dist X ntree_limit validate_features iteration_range self
  with
  | (self', Ok (first :: _)) =>
      predict X ntree_limit validate_features iteration_range self
      = (self', Ok first)
  | (self', Ok []) =>
      predict X ntree_limit validate_features iteration_range self
      = (self', Raise IndexError)
  | (self', Raise e) =>
      predict X ntree_limit validate_features iteration_range self
      = (self', Raise e)
  end.
Proof.
  unfold predict, mbind, M_bind.
  destruct (predict_dist X ntree_limit validate_features iteration_range self)
    as [self' [[|first rest]|e]]; done.
Qed.

(** C4: with stored starting parameters [s] of length [K], the base-margin
    vector for [n] samples has length [n * K] and holds [s[k]] at index
    [i * K + k] for every sample [i < n] and parameter [k < K].  The source
    multiplies each parameter by [1.0], which leaves a float unchanged. *)
Theorem get_base_margins_layout self (s : list T) (n : nat) :
  (∀ x : T, x ∈ s → fmul x fone = x) →
  _starting_params self = Some s →
  ∃ v, _get_base_margins n self = (self, Ok v)
       ∧ length v = n * length s
       ∧ ∀ i k, i < n → k < length s → v !! (i * length s + k) = s !! k.
Proof.
  intros Hone Hs. exists (base_margins s n).
  split; [by apply get_base_margins_stored|].
  split; [by apply base_margins_length|].
  intros i k Hi Hk. rewrite base_margins_unfold.
  assert (E : (λ p, fmul p fone) <$> s = s).
  { rewrite <- (list_fmap_id s) at 2. apply list_fmap_ext.
    intros j x Hx. apply Hone. by apply list_elem_of_lookup_2 in Hx. }
  rewrite E.
  rewrite (pack_lookup n (length s)); [|apply has_shape_replicate|done].
  by rewrite lookup_replicate_2.
Qed.
(** C5, as amended: for a matrix [M] of shape (n, K) with at least one
    column (or without rows), unpacking the packed vector gives [M] back,
    entry for entry. *)
Theorem unpack_pack (n K : nat) (M : list (list T)) :
  has_shape n K M → 0 < K ∨ n = 0 → unpack (pack M) K = M.
Proof.
  intros HM [HK | ->].
  - unfold unpack. destruct K as [|K]; [lia|].
    apply chunks_pack; [lia|apply HM|].
    rewrite (pack_length n (S K)) by done. destruct HM as [-> _]. nia.
  - destruct HM as [HM _]. apply nil_length_inv in HM as ->.
    unfold unpack. by destruct K.
Qed.

(** Shared by C6 and C7: what the second stage of [fit] hands to the
    engine. *)
Lemma fit_train_args_inv self self1 tc X y eval_set early_stopping_rounds
    verbose :
  fit_train_args X y eval_set early_stopping_rounds verbose self
  = (self1, Ok tc) →
  ∃ d sp wc dtrain evals,
    get_distribution (distribution self) = Ok d
    ∧ dist_starting_params d y = Ok sp
    ∧ _wrap_evaluation_matrices wc = Ok (dtrain, evals)
    ∧ self1 = set__starting_params sp (set__distribution d self)
    ∧ tc = {| tc_params :=
                <["base_score" := VFloat fzero]>
                  (<["num_class" :=
                       VInt (Z.of_nat (length (dist_params d)))]>
                     (<["disable_default_eval_metric" := VBool true]>
                        (get_xgb_params (set__distribution d self))));
              tc_dtrain := dtrain;
              tc_num_boost_round := get_num_boosting_rounds self1;
              tc_evals := evals;
              tc_early_stopping_rounds := early_stopping_rounds;
              tc_obj := _objective_func self1;
              tc_feval := _evaluation_func self1;
              tc_verbose_eval := verbose |}.
Proof.
  unfold fit_train_args. unfold mbind at 1. unfold M_bind.
  destruct (get_distribution (distribution self)) as [d|e] eqn:Hd.
  2:{ by rewrite (fit_wrap_args_raise_lookup _ _ _ _ e Hd). }
  destruct (dist_starting_params d y) as [sp|e] eqn:Hsp.
  2:{ by rewrite (fit_wrap_args_raise_starting _ _ _ _ d e Hd Hsp). }
  destruct (fit_wrap_args_ok self X y eval_set d sp Hd Hsp)
    as (params & wc & -> & -> & _).
  unfold mbind at 1. unfold M_bind, call.
  destruct (_wrap_evaluation_matrices wc) as [[dtrain evals]|e] eqn:Hwrap;
    [|done].
  unfold_M. intros [= <- <-]. eauto 10.
Qed.

(** C6: whenever [fit] reaches the training entry point, the parameter set
    it passes has [disable_default_eval_metric] set to true, [num_class]
    set to the number of parameters of the resolved distribution and
    [base_score] set to [0.0], and the objective and evaluation callbacks
    of the estimator are passed along; the outcome of [fit] is the outcome
    of that one call. *)
Theorem fit_train_call self self1 tc X y eval_set early_stopping_rounds
    verbose :
  fit_train_args X y eval_set early_stopping_rounds verbose self
  = (self1, Ok tc) →
  ∃ d,
    get_distribution (distribution self) = Ok d
    ∧ _distribution self1 = Some d
    ∧ tc_params tc !! "disable_default_eval_metric" = Some (VBool true)
    ∧ tc_params tc !! "num_class"
      = Some (VInt (Z.of_nat (length (dist_params d))))
    ∧ tc_params tc !! "base_score" = Some (VFloat fzero)
    ∧ tc_obj tc = _objective_func self1
    ∧ tc_feval tc = _evaluation_func self1
    ∧ fit X y eval_set early_stopping_rounds verbose self
      = match xgb_train tc with
        | Ok b => (set__Booster b self1, Ok tt)
        | Raise e => (self1, Raise e)
        end.
Proof.
  intros Hargs.
  destruct (fit_train_args_inv _ _ _ _ _ _ _ _ Hargs)
    as (d & sp & wc & dtrain & evals & Hd & Hsp & Hwrap & Hself1 & Htc).
  exists d. split; [done|]. split; [by rewrite Hself1|].
  split; [rewrite Htc; simpl; by simplify_map_eq|].
  split; [rewrite Htc; simpl; by simplify_map_eq|].
  split; [rewrite Htc; simpl; by simplify_map_eq|].
  split; [by rewrite Htc|]. split; [by rewrite Htc|].
  unfold fit. unfold mbind at 1 2. unfold M_bind. rewrite Hargs.
  unfold call, setattr. by destruct (xgb_train tc).
Qed.

(** Shared by C7: the evaluation callback reads only the stored
    distribution. *)
Lemma evaluation_func_reads_distribution (a b : @XGBDistribution T _) :
  _distribution a = _distribution b →
  _evaluation_func a = _evaluation_func b.
Proof. intros E. unfold _evaluation_func. by rewrite E. Qed.

(** C7: for two estimators that are identical except for the
    [natural_gradient] flag, the evaluation callback returns the same
    metric on every predictions and labels input. *)
Theorem evaluation_independent_of_natural_gradient
    (a b : @XGBDistribution T _) (params : np.ndarray T) (data : DMatrix) :
  same_up_to_natural_gradient a b →
  _evaluation_func a params data = _evaluation_func b params data.
Proof.
  intros (_ & _ & _ & Hd & _).
  by rewrite (evaluation_func_reads_distribution a b Hd).
Qed.

(** The same for the callback that [fit] registers: fitting with the flag
    changed registers an evaluation callback that computes the same
    metric. *)
Lemma fit_feval_independent_of_natural_gradient self flag X y eval_set
    early_stopping_rounds verbose self1 tc1 self2 tc2 :
  fit_train_args X y eval_set early_stopping_rounds verbose self
  = (self1, Ok tc1) →
  fit_train_args X y eval_set early_stopping_rounds verbose
    (set_natural_gradient flag self) = (self2, Ok tc2) →
  tc_feval tc1 = tc_feval tc2.
Proof.
  intros H1 H2.
  apply fit_train_args_inv in H1
    as (d1 & sp1 & ? & ? & ? & Hd1 & _ & _ & -> & ->).
  apply fit_train_args_inv in H2
    as (d2 & sp2 & ? & ? & ? & Hd2 & _ & _ & -> & ->).
  simpl in Hd2. rewrite Hd1 in Hd2. injection Hd2 as <-.
  simpl. by apply evaluation_func_reads_distribution.
Qed.

(** C8: the objective callback calls [gradient_and_hessian] of the stored
    distribution on the labels of the data handle, the predictions and the
    [natural_gradient] flag of the estimator, and returns both results
    flattened; when they are matrices of shape (n, K), each flat vector has
    length [n * K] and holds entry [(i, k)] at index [i * K + k]. *)
Theorem objective_func_flattens self d (params : np.ndarray T)
    (data : DMatrix) (n K : nat) (G Hs : list (list T)) :
  _distribution self = Some d →
  dist_gradient_and_hessian d (get_label data) params (natural_gradient self)
  = (np.Arr2 K G, np.Arr2 K Hs) →
  has_shape n K G → has_shape n K Hs →
  ∃ grad hess,
    _objective_func self params data = Ok (grad, hess)
    ∧ grad = np.flatten (np.Arr2 K G) ∧ hess = np.flatten (np.Arr2 K Hs)
    ∧ length grad = n * K ∧ length hess = n * K
    ∧ ∀ i k, i < n → k < K →
        grad !! (i * K + k) = G !! i ≫= (λ r, r !! k)
        ∧ hess !! (i * K + k) = Hs !! i ≫= (λ r, r !! k).
Proof.
  intros Hd Hgh HG HHs. unfold _objective_func. rewrite Hd, Hgh.
  eexists _, _. split; [done|]. split; [done|]. split; [done|].
  simpl. fold (pack G) (pack Hs).
  split; [by apply pack_length|]. split; [by apply pack_length|].
  intros i k _ Hk. split; by apply (pack_lookup n).
Qed.

(** C9: when [fit] gets as far as building margins, the training margin and
    one margin per evaluation pair are built from the same stored starting
    parameters, the margin of a pair having length [len(y_eval) * K]; with
    an absent [eval_set] no evaluation margins are built. *)
Theorem fit_eval_set_margins self X y eval_set d sp :
  get_distribution (distribution self) = Ok d →
  dist_starting_params d y = Ok sp →
  ∃ self1 params wc,
    fit_wrap_args X y eval_set self = (self1, Ok (params, wc))
    ∧ _starting_params self1 = Some sp
    ∧ wc_eval_set wc = eval_set
    ∧ match eval_set with
      | None => wc_base_margin_eval_set wc = None
      | Some pairs =>
          ∃ margins,
            wc_base_margin_eval_set wc = Some margins
            ∧ length margins = length pairs
            ∧ ∀ j X_eval y_eval,
                pairs !! j = Some (X_eval, y_eval) →
                ∃ m, margins !! j = Some m
                     ∧ _get_base_margins (length y_eval) self1
                       = (self1, Ok m)
                     ∧ length m = length y_eval * length sp
      end.
Proof.
  intros Hd Hsp.
  destruct (fit_wrap_args_ok self X y eval_set d sp Hd Hsp)
    as (params & wc & Hrun & _ & _ & Hes & Hmargins).
  eexists _, params, wc. split; [exact Hrun|]. split; [done|].
  split; [done|].
  destruct eval_set as [pairs|]; [|done].
  eexists. split; [exact Hmargins|]. split; [by rewrite length_fmap|].
  intros j X_eval y_eval Hj.
  exists (base_margins sp (length y_eval)).
  split; [by rewrite list_lookup_fmap, Hj|].
  split; [by apply get_base_margins_stored|].
  by apply base_margins_length.
Qed.

(** C10: when the [distribution] argument is omitted, [None] or any other
    falsy value (such as the empty string), the constructor call is the
    call with ["normal"]: every estimator it constructs has the
    distribution name ["normal"], so [fit] looks up ["normal"], and an
    omitted [natural_gradient] is true.  An estimator is constructed
    exactly when the keyword arguments do not hold ["objective"]; with that
    keyword the call raises [TypeError]. *)
Theorem init_defaults (distribution_arg : option (pyval T))
    (natural_gradient_arg : option bool) (kwargs_arg : gmap string (pyval T)) :
  truthy (default VNone distribution_arg) = false →
  __init__ distribution_arg natural_gradient_arg kwargs_arg
  = __init__ (Some (VStr "normal")) natural_gradient_arg kwargs_arg
  ∧ (∀ self,
       __init__ distribution_arg natural_gradient_arg kwargs_arg = Ok self →
       distribution self = VStr "normal"
       ∧ natural_gradient self = default true natural_gradient_arg
       ∧ unfitted self)
  ∧ (kwargs_arg !! "objective" = None →
     ∃ self,
       __init__ distribution_arg natural_gradient_arg kwargs_arg = Ok self
       ∧ distribution self = VStr "normal"
       ∧ kwargs self = kwargs_arg)
  ∧ (is_Some (kwargs_arg !! "objective") →
     __init__ distribution_arg natural_gradient_arg kwargs_arg
     = Raise TypeError)
  ∧ (∀ self,
       __init__ distribution_arg None kwargs_arg = Ok self →
       natural_gradient self = true).
Proof.
  intros Hfalsy. unfold __init__, py_or. rewrite Hfalsy. simpl.
  destruct (kwargs_arg !! "objective") as [v|] eqn:Hobj.
  - split; [done|]. split; [discriminate|]. split; [discriminate|].
    split; [done|]. discriminate.
  - split; [done|]. split; [by intros self [= <-]|].
    split; [by eexists|]. split; [by intros [? ?]|]. by intros self [= <-].
Qed.
End claims.

(** ** Further properties of the estimator *)

Section more_facts.
Context {T : Type} `{Float T} `{EngineTypes}.
Context {engine : @XGBoost T _} {registry : @Registry T}.
Implicit Types (self : @XGBDistribution T _) (X : Features) (y : list T)
  (eval_set : option (list (Features * list T))).

(** The first stage of [fit] when lookup and starting values succeed, with
    the keyword arguments written out. *)
Lemma fit_wrap_args_run self X y eval_set d sp :
  get_distribution (distribution self) = Ok d →
  dist_starting_params d y = Ok sp →
  fit_wrap_args X y eval_set self
  = (set__starting_params sp (set__distribution d self),
     Ok (<["base_score" := VFloat fzero]>
           (<["num_class" := VInt (Z.of_nat (length (dist_params d)))]>
              (<["disable_default_eval_metric" := VBool true]>
                 (get_xgb_params (set__distribution d self)))),
         {| wc_missing :=
              missing (set__starting_params sp (set__distribution d self));
            wc_X := X;
            wc_y := y;
            wc_group := VNone;
            wc_qid := VNone;
            wc_sample_weight := VNone;
            wc_base_margin := base_margins sp (length y);
            wc_feature_weights := VNone;
            wc_eval_set := eval_set;
            wc_sample_weight_eval_set := VNone;
            wc_base_margin_eval_set :=
              match eval_set with
              | Some es => Some ((λ evals : Features * list T,
                                    base_margins sp (length evals.2)) <$> es)
              | None => None
              end;
            wc_eval_group := VNone;
            wc_eval_qid := VNone;
            wc_create_dmatrix_nthread :=
              n_jobs (set__starting_params sp (set__distribution d self));
            wc_label_transform := λ x, x |})).
Proof.
  intros Hd Hsp. unfold fit_wrap_args.
  unfold mbind at 1 2 3 4 5 6 7 8.
  unfold M_bind, call, get_self, setattr, getattr.
  rewrite Hd. simpl. rewrite Hsp.
  unfold mbind at 1. unfold M_bind.
  rewrite (get_base_margins_stored _ sp) by done.
  unfold mbind at 1. unfold M_bind.
  destruct eval_set as [es|].
  - unfold mbind at 1. unfold M_bind.
    rewrite (mapM_get_base_margins es _ sp) by done.
    unfold_M. done.
  - unfold_M. done.
Qed.

(** Where the first stage of [fit] can leave the estimator. *)
Lemma fit_wrap_args_state self X y eval_set :
  ∃ self1, (fit_wrap_args X y eval_set self).1 = self1
    ∧ (self1 = self
       ∨ (∃ d, self1 = set__distribution d self)
       ∨ (∃ d sp, self1 = set__starting_params sp (set__distribution d self))).
Proof.
  eexists. split; [done|].
  destruct (get_distribution (distribution self)) as [d|e] eqn:Hd.
  2:{ rewrite (fit_wrap_args_raise_lookup _ _ _ _ e Hd). by left. }
  destruct (dist_starting_params d y) as [sp|e] eqn:Hsp.
  2:{ rewrite (fit_wrap_args_raise_starting _ _ _ _ d e Hd Hsp).
      right; left. by exists d. }
  rewrite (fit_wrap_args_run _ _ _ _ d sp Hd Hsp). right; right. by exists d, sp.
Qed.

(** The second stage of [fit] calls the engine and assigns nothing. *)
Lemma fit_train_args_state self X y eval_set early_stopping_rounds verbose :
  (fit_train_args X y eval_set early_stopping_rounds verbose self).1
  = (fit_wrap_args X y eval_set self).1.
Proof.
  unfold fit_train_args. unfold mbind at 1. unfold M_bind.
  destruct (fit_wrap_args X y eval_set self) as [self1 [[params wc]|e]];
    [|done].
  unfold_M. by destruct (_wrap_evaluation_matrices wc) as [[? ?]|?].
Qed.

(** X1: whatever its outcome, [fit] leaves the constructor parameters
    ([distribution], [natural_gradient], [objective] and the keyword
    arguments) as they were. *)
Theorem fit_keeps_init_params self X y eval_set early_stopping_rounds
    verbose :
  init_params (fit X y eval_set early_stopping_rounds verbose self).1
  = init_params self.
Proof.
  assert (Hstage : init_params
            (fit_train_args X y eval_set early_stopping_rounds verbose self).1
          = init_params self).
  { rewrite fit_train_args_state.
    destruct (fit_wrap_args_state self X y eval_set)
      as (self1 & -> & [-> | [[d ->] | (d & sp & ->)]]); done. }
  unfold fit. unfold mbind at 1 2. unfold M_bind.
  destruct (fit_train_args X y eval_set early_stopping_rounds verbose self)
    as [self1 [tc|e]]; [|exact Hstage].
  unfold call, setattr. by destruct (xgb_train tc).
Qed.

(** X2: the parameter set passed to the training entry point differs from
    [get_xgb_params()] only in the three keys that [fit] assigns: every
    other key is passed as [get_xgb_params] gives it, present or absent. *)
Theorem fit_train_params_other_keys self self1 tc X y eval_set
    early_stopping_rounds verbose (key : string) :
  fit_train_args X y eval_set early_stopping_rounds verbose self
  = (self1, Ok tc) →
  key ≠ "disable_default_eval_metric" → key ≠ "num_class" →
  key ≠ "base_score" →
  ∃ d, get_distribution (distribution self) = Ok d
       ∧ tc_params tc !! key
         = get_xgb_params (set__distribution d self) !! key.
Proof.
  intros Hargs Hk1 Hk2 Hk3.
  destruct (fit_train_args_inv _ _ _ _ _ _ _ _ Hargs)
    as (d & sp & wc & dtrain & evals & Hd & _ & _ & _ & ->).
  exists d. split; [done|]. simpl. by rewrite !lookup_insert_ne.
Qed.

(** X3: the data that [fit] hands to [_wrap_evaluation_matrices] are the
    caller's: features, labels and evaluation set unchanged, the identity
    as label transform, the training margin built from the stored starting
    parameters, and no group, query id, sample weight or feature weight. *)
Theorem fit_wrap_call_data self self1 params wc X y eval_set :
  fit_wrap_args X y eval_set self = (self1, Ok (params, wc)) →
  wc_X wc = X ∧ wc_y wc = y ∧ wc_eval_set wc = eval_set
  ∧ (∀ labels, wc_label_transform wc labels = labels)
  ∧ _get_base_margins (length y) self1 = (self1, Ok (wc_base_margin wc))
  ∧ wc_missing wc = missing self1
  ∧ wc_create_dmatrix_nthread wc = n_jobs self1
  ∧ wc_group wc = VNone ∧ wc_qid wc = VNone ∧ wc_sample_weight wc = VNone
  ∧ wc_feature_weights wc = VNone ∧ wc_sample_weight_eval_set wc = VNone
  ∧ wc_eval_group wc = VNone ∧ wc_eval_qid wc = VNone.
Proof.
  destruct (get_distribution (distribution self)) as [d|e] eqn:Hd.
  2:{ by rewrite (fit_wrap_args_raise_lookup _ _ _ _ e Hd). }
  destruct (dist_starting_params d y) as [sp|e] eqn:Hsp.
  2:{ by rewrite (fit_wrap_args_raise_starting _ _ _ _ d e Hd Hsp). }
  rewrite (fit_wrap_args_run _ _ _ _ d sp Hd Hsp).
  intros [= <- <- <-]. simpl.
  rewrite (get_base_margins_stored _ sp) by done. repeat split.
Qed.

(** X4: the training entry point receives the data handles that
    [_wrap_evaluation_matrices] returned, the caller's
    [early_stopping_rounds] and [verbose], and the estimator's number of
    boosting rounds; the wrapping call itself assigns nothing. *)
Theorem fit_train_call_data self self1 tc X y eval_set early_stopping_rounds
    verbose :
  fit_train_args X y eval_set early_stopping_rounds verbose self
  = (self1, Ok tc) →
  ∃ params wc,
    fit_wrap_args X y eval_set self = (self1, Ok (params, wc))
    ∧ _wrap_evaluation_matrices wc = Ok (tc_dtrain tc, tc_evals tc)
    ∧ tc_params tc = params
    ∧ tc_early_stopping_rounds tc = early_stopping_rounds
    ∧ tc_verbose_eval tc = verbose
    ∧ tc_num_boost_round tc = get_num_boosting_rounds self1.
Proof.
  unfold fit_train_args. unfold mbind at 1. unfold M_bind.
  destruct (fit_wrap_args X y eval_set self) as [self0 [[params wc]|e]];
    [|done].
  unfold mbind at 1. unfold M_bind, call.
  destruct (_wrap_evaluation_matrices wc) as [[dtrain evals]|e] eqn:Hwrap;
    [|done].
  unfold_M. intros [= <- <-]. exists params, wc. done.
Qed.

(** X5: when [starting_params] returns one value per distribution
    parameter, the margins agree with [num_class]: with [num_class = K],
    the training margin has length [len(y) * K] and the margin of every
    evaluation pair has length [len(y_eval) * K]. *)
Theorem fit_margins_match_num_class self X y eval_set d sp :
  get_distribution (distribution self) = Ok d →
  dist_starting_params d y = Ok sp →
  length sp = length (dist_params d) →
  ∃ self1 params wc (K : nat),
    fit_wrap_args X y eval_set self = (self1, Ok (params, wc))
    ∧ params !! "num_class" = Some (VInt (Z.of_nat K))
    ∧ length (wc_base_margin wc) = length y * K
    ∧ ∀ margins, wc_base_margin_eval_set wc = Some margins →
        ∃ pairs, eval_set = Some pairs
          ∧ length <$> margins = (λ evals, length evals.2 * K) <$> pairs.
Proof.
  intros Hd Hsp HK.
  eexists _, _, _, (length sp).
  split; [exact (fit_wrap_args_run _ X y eval_set d sp Hd Hsp)|].
  split; [rewrite HK; by simplify_map_eq|].
  split; [apply base_margins_length|].
  simpl. destruct eval_set as [pairs|]; [|done].
  intros margins [= <-]. exists pairs. split; [done|].
  rewrite <- list_fmap_compose. apply list_fmap_ext.
  intros j evals _. apply base_margins_length.
Qed.
(** X6: on an estimator that stores a distribution and starting
    parameters, [predict_dist] assigns nothing, asks the engine for raw
    margins ([output_margin=True]) with the margin built from the stored
    starting parameters for [X.shape[0]] rows and the caller's options, and
    returns the distribution's [predict] of the engine's output; an error
    of the engine is passed on. *)
Theorem predict_dist_stored self d sp X ntree_limit validate_features
    iteration_range :
  _distribution self = Some d →
  _starting_params self = Some sp →
  predict_dist X ntree_limit validate_features iteration_range self
  = (self,
     match XGBModel_predict self
             {| pc_X := X;
                pc_output_margin := true;
                pc_ntree_limit := ntree_limit;
                pc_validate_features := validate_features;
                pc_base_margin := base_margins sp (shape0 X);
                pc_iteration_range := iteration_range |}
     with
     | Ok params => Ok (dist_predict d params)
     | Raise e => Raise e
     end).
Proof.
  intros Hd Hsp. unfold predict_dist, _get_base_margins. unfold_M.
  rewrite Hd. simpl. rewrite Hsp. simpl.
  match goal with
  | |- context [XGBModel_predict self ?pc] =>
      destruct (XGBModel_predict self pc)
  end; [by rewrite Hd|done].
Qed.

(** X7: when no distribution is stored, [predict_dist] looks the
    distribution up by the estimator's name: a failing lookup is raised
    with the estimator unchanged, and otherwise the distribution is stored
    and the call goes on as on the estimator that stores it. *)
Theorem predict_dist_resolves_distribution self X ntree_limit
    validate_features iteration_range :
  _distribution self = None →
  predict_dist X ntree_limit validate_features iteration_range self
  = match get_distribution (distribution self) with
    | Ok d =>
        predict_dist X ntree_limit validate_features iteration_range
          (set__distribution d self)
    | Raise e => (self, Raise e)
    end.
Proof.
  intros Hd. unfold predict_dist. unfold_M. rewrite Hd. simpl.
  by destruct (get_distribution (distribution self)).
Qed.

(** X8: whatever its outcome, [predict_dist] leaves the constructor
    parameters, the starting parameters and the ensemble as they were, and
    never replaces a stored distribution. *)
Theorem predict_dist_frame self X ntree_limit validate_features
    iteration_range :
  let self' :=
    (predict_dist X ntree_limit validate_features iteration_range self).1 in
  init_params self' = init_params self
  ∧ _starting_params self' = _starting_params self
  ∧ _Booster self' = _Booster self
  ∧ (is_Some (_distribution self) → _distribution self' = _distribution self).
Proof.
  unfold predict_dist, _get_base_margins. unfold_M.
  destruct (_distribution self) as [d0|] eqn:Hd0; simpl; rewrite ?Hd0.
  - destruct (_starting_params self) as [sp|] eqn:Hsp; simpl;
      rewrite ?Hd0, ?Hsp; [|done].
    match goal with
    | |- context [XGBModel_predict self ?pc] =>
        destruct (XGBModel_predict self pc)
    end; simpl; rewrite ?Hd0, ?Hsp; done.
  - assert (Hno : ∀ P : Prop, is_Some (@None (@Distribution T)) → P)
      by (by intros P [? ?]).
    destruct (get_distribution (distribution self)) as [d|e]; simpl;
      [|by repeat split; try apply Hno].
    destruct (_starting_params self) as [sp|] eqn:Hsp; simpl;
      rewrite ?Hsp; [|by repeat split; try apply Hno].
    match goal with
    | |- context [XGBModel_predict ?s ?pc] =>
        destruct (XGBModel_predict s pc)
    end; simpl; rewrite ?Hsp; by repeat split; try apply Hno.
Qed.

(** X9: after a successful [fit], [predict_dist] uses what that [fit]
    stored: the distribution resolved from the estimator's name and the
    starting parameters computed from the training labels, whatever the
    estimator stored before; and it leaves the fitted estimator unchanged. *)
Theorem fit_then_predict_dist_uses_fit self self' X y eval_set
    early_stopping_rounds verbose X' ntree_limit validate_features
    iteration_range :
  fit X y eval_set early_stopping_rounds verbose self = (self', Ok tt) →
  ∃ d sp,
    get_distribution (distribution self) = Ok d
    ∧ dist_starting_params d y = Ok sp
    ∧ predict_dist X' ntree_limit validate_features iteration_range self'
      = (self',
         match XGBModel_predict self'
                 {| pc_X := X';
                    pc_output_margin := true;
                    pc_ntree_limit := ntree_limit;
                    pc_validate_features := validate_features;
                    pc_base_margin := base_margins sp (shape0 X');
                    pc_iteration_range := iteration_range |}
         with
         | Ok params => Ok (dist_predict d params)
         | Raise e => Raise e
         end).
Proof.
  unfold fit. unfold mbind at 1 2. unfold M_bind.
  destruct (fit_train_args X y eval_set early_stopping_rounds verbose self)
    as [self1 [tc|e]] eqn:Hargs; [|done].
  destruct (fit_train_args_inv _ _ _ _ _ _ _ _ Hargs)
    as (d & sp & wc & dtrain & evals & Hd & Hsp & _ & Hself1 & _).
  unfold call, setattr. destruct (xgb_train tc) as [b|e]; [|done].
  intros [= <-]. exists d, sp. split; [done|]. split; [done|].
  rewrite Hself1. unfold predict_dist, _get_base_margins. unfold_M. simpl.
  match goal with
  | |- context [XGBModel_predict ?s ?pc] => destruct (XGBModel_predict s pc)
  end; done.
Qed.

(** X10: [_get_base_margins] never assigns to the estimator, and it fails,
    with [AttributeError], exactly when no starting parameters are stored. *)
Theorem get_base_margins_error self (n : nat) :
  (_get_base_margins n self).1 = self
  ∧ ((_get_base_margins n self).2 = Raise AttributeError
     ↔ _starting_params self = None)
  ∧ (∀ e, (_get_base_margins n self).2 = Raise e → e = AttributeError).
Proof.
  unfold _get_base_margins. unfold_M.
  destruct (_starting_params self) as [sp|]; simpl.
  - split; [done|]. split; [split; discriminate|]. discriminate.
  - split; [done|]. split; [done|]. by intros e [= <-].
Qed.

(** X11: the margin vector of [n + m] samples is the margin vector of [n]
    samples followed by that of [m] samples. *)
Theorem base_margins_app (s : list T) (n m : nat) :
  base_margins s (n + m) = base_margins s n ++ base_margins s m.
Proof.
  rewrite !base_margins_unfold. unfold pack.
  by rewrite replicate_add, concat_app.
Qed.

(** X12: without any assumption on float multiplication, the margin vector
    holds [s[k] * 1.0] at index [i * K + k]; so the margin of a parameter
    is the same for all samples. *)
Theorem base_margins_same_for_all_samples (s : list T) (n i j k : nat) :
  i < n → j < n → k < length s →
  base_margins s n !! (i * length s + k) = (λ p, fmul p fone) <$> s !! k
  ∧ base_margins s n !! (i * length s + k)
    = base_margins s n !! (j * length s + k).
Proof.
  intros Hi Hj Hk. rewrite base_margins_unfold.
  pose proof (has_shape_replicate n ((λ p, fmul p fone) <$> s)) as Hs.
  rewrite length_fmap in Hs.
  rewrite !(pack_lookup n (length s)) by done.
  rewrite !lookup_replicate_2 by done. simpl.
  by rewrite list_lookup_fmap.
Qed.

(** X13: while no distribution is stored both callbacks raise
    [AttributeError]; and neither callback reads the ensemble, the starting
    parameters or the constructor's keyword arguments: the evaluation
    callback depends on the estimator only through the stored distribution,
    the objective callback only through the stored distribution and the
    [natural_gradient] flag. *)
Theorem callbacks_need_distribution self (params : np.ndarray T)
    (data : DMatrix) :
  (_distribution self = None →
     _objective_func self params data = Raise AttributeError
     ∧ _evaluation_func self params data = Raise AttributeError)
  ∧ (∀ other : @XGBDistribution T _,
       _distribution other = _distribution self →
       _evaluation_func other params data = _evaluation_func self params data
       ∧ (natural_gradient other = natural_gradient self →
          _objective_func other params data
          = _objective_func self params data)).
Proof.
  unfold _objective_func, _evaluation_func. split.
  - by intros ->.
  - intros other ->. split; [done|]. by intros ->.
Qed.

(** X14: on every estimator that the constructor returns, [predict_dist]
    and [predict] raise, whatever the constructor arguments and the input;
    the constructor returns one whenever the keyword arguments do not hold
    ["objective"]. *)
Theorem predict_after_init_raises (distribution_arg : option (pyval T))
    (natural_gradient_arg : option bool) (kwargs_arg : gmap string (pyval T))
    X ntree_limit validate_features iteration_range :
  (kwargs_arg !! "objective" = None →
   ∃ self,
     __init__ distribution_arg natural_gradient_arg kwargs_arg = Ok self)
  ∧ ∀ self,
      __init__ distribution_arg natural_gradient_arg kwargs_arg = Ok self →
      (∃ e, (predict_dist X ntree_limit validate_features iteration_range
               self).2 = Raise e)
      ∧ (∃ e, (predict X ntree_limit validate_features iteration_range
                 self).2 = Raise e).
Proof.
  unfold __init__. split.
  - intros ->. by eexists.
  - intros self Hself.
    destruct (kwargs_arg !! "objective"); [discriminate Hself|].
    injection Hself as <-.
    unfold predict, predict_dist, _get_base_margins. unfold_M. simpl.
    match goal with
    | |- context [get_distribution ?v] => destruct (get_distribution v)
    end; simpl; eauto.
Qed.

(** X15: the constructor does not validate the name: with keyword
    arguments that do not hold ["objective"], a non-empty string is stored
    as it is in the estimator constructed, and when the registry does not
    know it, [fit] raises the error of the lookup and leaves the estimator
    as constructed. *)
Theorem init_then_fit_unknown_name (c : ascii) (name : string)
    (natural_gradient_arg : option bool) (kwargs_arg : gmap string (pyval T))
    (e : exn) X y eval_set early_stopping_rounds verbose :
  kwargs_arg !! "objective" = None →
  get_distribution (VStr (String c name)) = Raise e →
  ∃ self,
    __init__ (Some (VStr (String c name))) natural_gradient_arg kwargs_arg
    = Ok self
    ∧ distribution self = VStr (String c name)
    ∧ fit X y eval_set early_stopping_rounds verbose self = (self, Raise e).
Proof.
  intros Hobj He. unfold __init__. rewrite Hobj. eexists.
  split; [done|]. split; [done|].
  unfold fit, fit_train_args. unfold mbind at 1 2 3. unfold M_bind.
  rewrite (fit_wrap_args_raise_lookup _ X y eval_set e); [done|exact He].
Qed.

(** X16: [fit] succeeds when its collaborators do.  Once the distribution
    is found and the starting parameters are computed, the wrapping call is
    made; if it returns data handles, the training call is made; and if
    that returns an ensemble, [fit] returns with exactly that ensemble,
    the distribution and the starting parameters stored. *)
Theorem fit_succeeds self X y eval_set early_stopping_rounds verbose d sp :
  get_distribution (distribution self) = Ok d →
  dist_starting_params d y = Ok sp →
  ∃ params wc,
    fit_wrap_args X y eval_set self
    = (set__starting_params sp (set__distribution d self), Ok (params, wc))
    ∧ ∀ dtrain evals,
        _wrap_evaluation_matrices wc = Ok (dtrain, evals) →
        ∃ tc,
          fit_train_args X y eval_set early_stopping_rounds verbose self
          = (set__starting_params sp (set__distribution d self), Ok tc)
          ∧ tc_dtrain tc = dtrain ∧ tc_evals tc = evals
          ∧ ∀ b, xgb_train tc = Ok b →
              fit X y eval_set early_stopping_rounds verbose self
              = (set__Booster b
                   (set__starting_params sp (set__distribution d self)),
                 Ok tt).
Proof.
  intros Hd Hsp. eexists _, _.
  split; [exact (fit_wrap_args_run _ X y eval_set d sp Hd Hsp)|].
  intros dtrain evals Hwrap.
  assert (∃ tc,
            fit_train_args X y eval_set early_stopping_rounds verbose self
            = (set__starting_params sp (set__distribution d self), Ok tc)
            ∧ tc_dtrain tc = dtrain ∧ tc_evals tc = evals)
    as (tc & Hargs & Hdtrain & Hevals).
  { unfold fit_train_args. unfold mbind at 1. unfold M_bind.
    rewrite (fit_wrap_args_run _ X y eval_set d sp Hd Hsp).
    unfold mbind at 1. unfold M_bind, call. rewrite Hwrap.
    unfold_M. by eexists. }
  exists tc. split; [done|]. split; [done|]. split; [done|].
  intros b Hb. unfold fit. unfold mbind at 1 2. unfold M_bind.
  rewrite Hargs. unfold call, setattr. by rewrite Hb.
Qed.
End more_facts.

(** ** Runs on the stand-ins *)

Section runs.
Import Double.

(** The stand-in estimators are what the constructor returns; with the
    keyword [objective] it raises. *)
Example init_runs :
  __init__ None None ∅ = Ok est0
  ∧ __init__ None None kwargs_kw = Ok est_kw
  ∧ __init__ (Some (VStr "lognormal")) (Some false)
      (<["objective" := VStr "reg:squarederror"]> ∅)
    = (Raise TypeError : result (@XGBDistribution Z types)).
Proof. repeat split. Qed.

(** A fitted estimator predicts; the point prediction is the first vector. *)
Example fit_then_predict_dist :
  (fit X2 y2 None None true est0).2 = Ok tt
  ∧ fitted est_fit
  ∧ (predict_dist X2 None false None est_fit).2 = Ok [[8; 8]; [2; 2]]%Z
  ∧ (predict X2 None false None est_fit).2 = Ok [8; 8]%Z.
Proof.
  split; [by vm_compute|]. split.
  - repeat split; by eexists.
  - split; by vm_compute.
Qed.

Example base_margins_run :
  base_margins [7; 2]%Z 3 = [7; 2; 7; 2; 7; 2]%Z
  ∧ base_margins [7; 2]%Z 0 = []
  ∧ base_margins ([] : list Z) 3 = [].
Proof. repeat split. Qed.

(** C1, as stated, fails: a freshly constructed estimator raises
    [AttributeError], not [NotFittedError]. *)
Lemma predict_unfitted_not_NotFittedError :
  unfitted est0
  ∧ (predict_dist X2 None false None est0).2 = Raise AttributeError
  ∧ (predict X2 None false None est0).2 = Raise AttributeError
  ∧ (predict_dist X2 None false None est0).2 ≠ Raise NotFittedError
  ∧ (predict X2 None false None est0).2 ≠ Raise NotFittedError.
Proof.
  split; [by repeat split|].
  assert (E1 : (predict_dist X2 None false None est0).2
               = Raise AttributeError) by (by vm_compute).
  assert (E2 : (predict X2 None false None est0).2 = Raise AttributeError)
    by (by vm_compute).
  rewrite E1, E2. repeat split; discriminate.
Qed.

Lemma predict_unfitted_raises_witness :
  unfitted est0
  ∧ predict_dist X2 None false None est0
    = (set__distribution normal est0, Raise AttributeError)
  ∧ predict X2 None false None est0
    = (set__distribution normal est0, Raise AttributeError).
Proof.
  assert (Hu : unfitted est0) by (by repeat split).
  split; [exact Hu|].
  exact (predict_unfitted_raises est0 X2 None false None Hu).
Defined.

(** C2, as stated, fails: [fit] on an empty label set raises
    [InvalidInputError] and leaves the resolved distribution stored. *)
Lemma fit_failure_keeps_distribution :
  unfitted est0
  ∧ (fit X2 [] None None true est0).2 = Raise InvalidInputError
  ∧ ¬ unfitted (fit X2 [] None None true est0).1.
Proof.
  split; [by repeat split|]. split; [by vm_compute|].
  intros (_ & Hd & _). vm_compute in Hd. discriminate Hd.
Qed.

(** An engine failure leaves distribution and starting parameters stored. *)
Example fit_engine_failure_keeps_starting_params :
  (fit X2 y2 None (Some 3) true est0).2
  = Raise (EngineError "early stopping needs an evaluation set")
  ∧ _starting_params (fit X2 y2 None (Some 3) true est0).1 = Some [8; 2]%Z
  ∧ _Booster (fit X2 y2 None (Some 3) true est0).1 = None.
Proof. repeat split; by vm_compute. Qed.

Lemma get_base_margins_layout_witness :
  (∀ x : Z, x ∈ [8; 2]%Z → fmul x fone = x)
  ∧ _starting_params est_fit = Some [8; 2]%Z
  ∧ ∃ v, _get_base_margins 3 est_fit = (est_fit, Ok v)
         ∧ length v = 3 * 2
         ∧ ∀ i k, i < 3 → k < 2 → v !! (i * 2 + k) = [8; 2]%Z !! k.
Proof.
  assert (Hone : ∀ x : Z, x ∈ [8; 2]%Z → fmul x fone = x)
    by (intros x _; simpl; lia).
  split; [exact Hone|]. split; [reflexivity|].
  exact (get_base_margins_layout est_fit [8; 2]%Z 3 Hone eq_refl).
Defined.

(** C5, as stated, fails on a matrix with one row and no column. *)
Lemma unpack_pack_no_columns :
  has_shape 1 0 ([[]] : list (list Z))
  ∧ unpack (pack ([[]] : list (list Z))) 0 ≠ [[]].
Proof. split; [split; [done|by repeat constructor]|]. discriminate. Qed.

Lemma unpack_pack_witness :
  has_shape 3 2 [[1; 2]; [3; 4]; [5; 6]]%Z
  ∧ (0 < 2 ∨ 3 = 0)
  ∧ unpack (pack [[1; 2]; [3; 4]; [5; 6]]%Z) 2 = [[1; 2]; [3; 4]; [5; 6]]%Z.
Proof.
  assert (Hs : has_shape 3 2 [[1; 2]; [3; 4]; [5; 6]]%Z)
    by (split; [reflexivity|repeat constructor]).
  split; [exact Hs|]. split; [left; lia|].
  apply (unpack_pack 3 2 _ Hs). left. lia.
Defined.
Lemma fit_train_call_witness :
  ∃ self1 tc,
    fit_train_args X2 y2 (Some eval2) (Some 3) true est0 = (self1, Ok tc)
    ∧ tc_params tc !! "disable_default_eval_metric" = Some (VBool true)
    ∧ tc_params tc !! "num_class" = Some (VInt 2)
    ∧ tc_params tc !! "base_score" = Some (VFloat 0%Z)
    ∧ tc_obj tc = _objective_func self1
    ∧ tc_feval tc = _evaluation_func self1.
Proof.
  destruct (fit_train_args (H0:=types) X2 y2 (Some eval2) (Some 3) true est0)
    as [self1 [tc|e]] eqn:Hrun; [|vm_compute in Hrun; discriminate Hrun].
  exists self1, tc. split; [reflexivity|].
  destruct (fit_train_call (H0:=types) est0 self1 tc X2 y2 (Some eval2) (Some 3) true Hrun)
    as (d & Hd & _ & Hmetric & Hclass & Hscore & Hobj & Hfeval & _).
  vm_compute in Hd. injection Hd as <-.
  repeat split; assumption.
Defined.

Lemma evaluation_independent_of_natural_gradient_witness :
  same_up_to_natural_gradient est_fit (set_natural_gradient false est_fit)
  ∧ natural_gradient est_fit ≠ natural_gradient
                                 (set_natural_gradient false est_fit)
  ∧ _evaluation_func est_fit raw2 data2
    = _evaluation_func (set_natural_gradient false est_fit) raw2 data2.
Proof.
  assert (Hsame : same_up_to_natural_gradient est_fit
                    (set_natural_gradient false est_fit))
    by (repeat split).
  split; [exact Hsame|]. split; [discriminate|].
  exact (evaluation_independent_of_natural_gradient est_fit
           (set_natural_gradient false est_fit) raw2 data2 Hsame).
Defined.

Lemma objective_func_flattens_witness :
  _distribution est_fit = Some normal
  ∧ _objective_func est_fit raw2 data2
    = Ok ([10; -2; 6; -6]%Z, [1; 1; 1; 1]%Z).
Proof.
  assert (Hd : _distribution est_fit = Some normal) by reflexivity.
  split; [exact Hd|].
  assert (Hgh : dist_gradient_and_hessian normal (get_label data2) raw2
                  (natural_gradient est_fit)
                = (np.Arr2 2 [[10; -2]; [6; -6]]%Z,
                   np.Arr2 2 [[1; 1]; [1; 1]]%Z)) by reflexivity.
  assert (HG : has_shape 2 2 [[10; -2]; [6; -6]]%Z)
    by (split; [reflexivity|repeat constructor]).
  assert (HHs : has_shape 2 2 [[1; 1]; [1; 1]]%Z)
    by (split; [reflexivity|repeat constructor]).
  destruct (objective_func_flattens (H0:=types) est_fit normal raw2 data2 2 2
              _ _ Hd Hgh HG HHs)
    as (grad & hess & -> & -> & -> & _).
  reflexivity.
Defined.

Lemma fit_eval_set_margins_witness :
  ∃ self1 params wc,
    fit_wrap_args X2 y2 (Some eval2) est0 = (self1, Ok (params, wc))
    ∧ _starting_params self1 = Some [8; 2]%Z
    ∧ wc_base_margin_eval_set wc = Some [[8; 2; 8; 2]; [8; 2]]%Z.
Proof.
  assert (Hd : get_distribution (distribution est0) = Ok normal)
    by reflexivity.
  assert (Hsp : dist_starting_params normal y2 = Ok [8; 2]%Z) by reflexivity.
  destruct (fit_eval_set_margins (H0:=types) est0 X2 y2 (Some eval2) normal
              [8; 2]%Z Hd Hsp)
    as (self1 & params & wc & Hrun & Hstored & _ & margins & Hm & _).
  exists self1, params, wc. split; [exact Hrun|]. split; [exact Hstored|].
  vm_compute in Hrun. injection Hrun as _ _ <-.
  simpl in Hm. injection Hm as <-. reflexivity.
Defined.

Lemma init_defaults_witness :
  truthy (default VNone (Some (VStr "" : pyval Z))) = false
  ∧ ∃ self : @XGBDistribution Z types,
      __init__ (Some (VStr "")) (Some false) ∅ = Ok self
      ∧ distribution self = VStr "normal"
      ∧ natural_gradient self = false
      ∧ get_distribution (distribution self) = Ok normal.
Proof.
  assert (Hfalsy : truthy (default VNone (Some (VStr "" : pyval Z))) = false)
    by reflexivity.
  split; [exact Hfalsy|].
  destruct (init_defaults (T:=Z) (H0:=types) (Some (VStr "")) (Some false) ∅
              Hfalsy)
    as (_ & Hany & Hmakes & _ & _).
  destruct (Hmakes eq_refl) as (self & Hself & Hname & _).
  exists self. split; [exact Hself|]. split; [exact Hname|].
  split; [exact (proj1 (proj2 (Hany self Hself)))|].
  rewrite Hname. reflexivity.
Defined.

Lemma fit_train_params_other_keys_witness :
  ∃ self1 tc,
    fit_train_args X2 y2 None None true est_kw = (self1, Ok tc)
    ∧ kwargs est_kw !! "base_score" = Some (VFloat 5%Z)
    ∧ tc_params tc !! "max_depth" = Some (VInt 3).
Proof.
  destruct (fit_train_args (H0:=types) X2 y2 None None true est_kw)
    as [self1 [tc|e]] eqn:Hrun; [|vm_compute in Hrun; discriminate Hrun].
  exists self1, tc. split; [reflexivity|]. split; [reflexivity|].
  assert (H1 : "max_depth" ≠ "disable_default_eval_metric") by discriminate.
  assert (H2 : "max_depth" ≠ "num_class") by discriminate.
  assert (H3 : "max_depth" ≠ "base_score") by discriminate.
  destruct (fit_train_params_other_keys (H0:=types) est_kw self1 tc X2 y2
              None None true "max_depth" Hrun H1 H2 H3)
    as (d & Hd & Hkey).
  rewrite Hkey. vm_compute in Hd. injection Hd as <-. reflexivity.
Defined.

Lemma fit_wrap_call_data_witness :
  ∃ self1 params wc,
    fit_wrap_args X2 y2 (Some eval2) est0 = (self1, Ok (params, wc))
    ∧ wc_X wc = X2 ∧ wc_y wc = y2 ∧ wc_eval_set wc = Some eval2
    ∧ wc_sample_weight wc = VNone.
Proof.
  destruct (fit_wrap_args (H0:=types) X2 y2 (Some eval2) est0)
    as [self1 [[params wc]|e]] eqn:Hrun;
    [|vm_compute in Hrun; discriminate Hrun].
  exists self1, params, wc. split; [reflexivity|].
  destruct (fit_wrap_call_data (H0:=types) est0 self1 params wc X2 y2
              (Some eval2) Hrun)
    as (HX & Hy & Hes & _ & _ & _ & _ & _ & _ & Hw & _).
  repeat split; assumption.
Defined.

Lemma fit_train_call_data_witness :
  ∃ self1 tc,
    fit_train_args X2 y2 (Some eval2) (Some 3) true est0 = (self1, Ok tc)
    ∧ tc_early_stopping_rounds tc = Some 3
    ∧ tc_verbose_eval tc = true
    ∧ length (tc_evals tc) = 2.
Proof.
  destruct (fit_train_args (H0:=types) X2 y2 (Some eval2) (Some 3) true est0)
    as [self1 [tc|e]] eqn:Hrun; [|vm_compute in Hrun; discriminate Hrun].
  exists self1, tc. split; [reflexivity|].
  destruct (fit_train_call_data (H0:=types) est0 self1 tc X2 y2 (Some eval2)
              (Some 3) true Hrun)
    as (params & wc & _ & _ & _ & Hesr & Hverbose & _).
  split; [exact Hesr|]. split; [exact Hverbose|].
  vm_compute in Hrun. injection Hrun as _ <-. reflexivity.
Defined.

Lemma fit_margins_match_num_class_witness :
  length [8; 2]%Z = length (dist_params normal)
  ∧ ∃ self1 params wc,
      fit_wrap_args X2 y2 (Some eval2) est0 = (self1, Ok (params, wc))
      ∧ params !! "num_class" = Some (VInt 2)
      ∧ length (wc_base_margin wc) = 4.
Proof.
  assert (HK : length [8; 2]%Z = length (dist_params normal)) by reflexivity.
  split; [exact HK|].
  assert (Hd : get_distribution (distribution est0) = Ok normal)
    by reflexivity.
  assert (Hsp : dist_starting_params normal y2 = Ok [8; 2]%Z) by reflexivity.
  destruct (fit_margins_match_num_class (H0:=types) est0 X2 y2 (Some eval2)
              normal [8; 2]%Z Hd Hsp HK)
    as (self1 & params & wc & K & Hrun & Hclass & Hlen & _).
  exists self1, params, wc. split; [exact Hrun|].
  vm_compute in Hrun. injection Hrun as _ <- <-. split; reflexivity.
Defined.

Lemma predict_dist_stored_witness :
  _distribution est_fit = Some normal
  ∧ _starting_params est_fit = Some [8; 2]%Z
  ∧ predict_dist X2 None false None est_fit
    = (est_fit, Ok [[8; 8]; [2; 2]]%Z).
Proof.
  assert (Hd : _distribution est_fit = Some normal) by reflexivity.
  assert (Hsp : _starting_params est_fit = Some [8; 2]%Z) by reflexivity.
  split; [exact Hd|]. split; [exact Hsp|].
  rewrite (predict_dist_stored (H0:=types) est_fit normal [8; 2]%Z X2 None
             false None Hd Hsp).
  reflexivity.
Defined.

Lemma predict_dist_resolves_distribution_witness :
  _distribution est_no_dist = None
  ∧ predict_dist X2 None false None est_no_dist
    = predict_dist X2 None false None (set__distribution normal est_no_dist)
  ∧ (predict_dist X2 None false None est_no_dist).2
    = Ok [[8; 8]; [2; 2]]%Z.
Proof.
  assert (Hd : _distribution est_no_dist = None) by reflexivity.
  split; [exact Hd|].
  rewrite (predict_dist_resolves_distribution (H0:=types) est_no_dist X2
             None false None Hd).
  split; reflexivity.
Defined.

Lemma fit_then_predict_dist_uses_fit_witness :
  fit X2 y2 None None true est0 = (est_fit, Ok tt)
  ∧ predict_dist X2 None false None est_fit
    = (est_fit, Ok [[8; 8]; [2; 2]]%Z).
Proof.
  assert (Hfit : fit X2 y2 None None true est0 = (est_fit, Ok tt))
    by reflexivity.
  split; [exact Hfit|].
  destruct (fit_then_predict_dist_uses_fit (H0:=types) est0 est_fit X2 y2
              None None true X2 None false None Hfit)
    as (d & sp & Hd & Hsp & ->).
  vm_compute in Hd. injection Hd as <-.
  vm_compute in Hsp. injection Hsp as <-. reflexivity.
Defined.

Lemma base_margins_same_for_all_samples_witness :
  base_margins [7; 2]%Z 3 !! 1 = Some 2%Z
  ∧ base_margins [7; 2]%Z 3 !! 1 = base_margins [7; 2]%Z 3 !! 5.
Proof.
  assert (H0 : 0 < 3) by lia. assert (H2 : 2 < 3) by lia.
  assert (H1 : 1 < length [7; 2]%Z) by (simpl; lia).
  destruct (base_margins_same_for_all_samples [7; 2]%Z 3 0 2 1 H0 H2 H1)
    as [Hval Hsame].
  split; [exact Hval|exact Hsame].
Defined.

Lemma predict_after_init_raises_witness :
  __init__ None None ∅ = Ok est0
  ∧ (∃ e, (predict_dist X2 None false None est0).2 = Raise e)
  ∧ (∃ e, (predict X2 None false None est0).2 = Raise e).
Proof.
  assert (Hinit : __init__ None None ∅ = Ok est0) by reflexivity.
  split; [exact Hinit|].
  exact (proj2 (predict_after_init_raises (H0:=types) None None ∅ X2 None
                  false None) est0 Hinit).
Defined.

Lemma init_then_fit_unknown_name_witness :
  (∅ : gmap string (pyval Z)) !! "objective" = None
  ∧ get_distribution (VStr "poisson" : pyval Z)
    = Raise UnknownDistributionError
  ∧ ∃ self : @XGBDistribution Z types,
      __init__ (Some (VStr "poisson")) None ∅ = Ok self
      ∧ distribution self = VStr "poisson"
      ∧ fit X2 y2 None None true self = (self, Raise UnknownDistributionError).
Proof.
  assert (Hobj : (∅ : gmap string (pyval Z)) !! "objective" = None)
    by reflexivity.
  assert (He : get_distribution (VStr "poisson" : pyval Z)
               = Raise UnknownDistributionError) by reflexivity.
  split; [exact Hobj|]. split; [exact He|].
  exact (init_then_fit_unknown_name (H0:=types) "p" "oisson" None ∅
           UnknownDistributionError X2 y2 None None true Hobj He).
Defined.

Lemma fit_succeeds_witness :
  ∃ b, fit X2 y2 None None true est0
       = (set__Booster b
            (set__starting_params [8; 2]%Z (set__distribution normal est0)),
          Ok tt).
Proof.
  assert (Hd : get_distribution (distribution est0) = Ok normal)
    by reflexivity.
  assert (Hsp : dist_starting_params normal y2 = Ok [8; 2]%Z) by reflexivity.
  destruct (fit_succeeds (H0:=types) est0 X2 y2 None None true normal
              [8; 2]%Z Hd Hsp)
    as (params & wc & Hrun & Hnext).
  vm_compute in Hrun. injection Hrun as <- <-.
  destruct (Hnext _ _ eq_refl) as (tc & Hargs & _ & _ & Hfit).
  vm_compute in Hargs. injection Hargs as <-.
  eexists. apply Hfit. reflexivity.
Defined.
End runs.
